(** * DereplicatorAdapter: the option-validation and external-invocation flow

    A shallow embedding of [src/utils/DereplicatorAdapter.cpp]
    ([TOPPDereplicatorAdapter::registerOptionsAndFlags_], [main_] and the
    program's [main]) as state-passing functions over a small model of the
    tool object and of the file system, followed by the properties of the
    adapter. *)

From stdpp Require Import base option list strings gmap fin_maps fin_sets.

Local Open Scope string_scope.
Local Open Scope Z_scope.

(** ** Data model *)

(** Modelled from the spec: the enumeration [TOPPBase::ExitCodes] is declared
    in the framework, outside this file.  The three members the adapter
    names, the member the framework's process runner reports for a child
    that did not succeed, and a catch-all for the remaining members. *)
Inductive ExitCodes : Type :=
  | EXECUTION_OK
  | ILLEGAL_PARAMETERS
  | MISSING_PARAMETERS
  | EXTERNAL_PROGRAM_ERROR
  | OTHER_EXIT_CODE (n : nat).

#[global] Instance ExitCodes_eq_dec : EqDecision ExitCodes.
Proof. solve_decision. Defined.

(** What the adapter does to the outside, in the order it does it. *)
Inductive Event : Type :=
  | EvLog (msg : string)
  | EvMkTempDir (d : string)
  | EvSpawn (exe : string) (args : list string)
  | EvRemove (p : string)
  | EvOpenRead (p : string)
  | EvOpenWrite (p : string)
  | EvWrite (p : string) (content : string)
  | EvRmTempDir (d : string).

#[global] Instance Event_eq_dec : EqDecision Event.
Proof. solve_decision. Defined.

(** Regular files with their bytes and the directories that exist, each
    under its absolute name.  There are no symbolic links and no
    permissions. *)
Record Disk : Type := mkDisk {
  files : gmap string string;
  dirs : gset string
}.

(** The tool object ([debug_level_], [working_dir_]) and its environment. *)
Record World : Type := mkWorld {
  disk : Disk;
  cwd : string;
  search_path : list string;
  debug_level_ : Z;
  working_dir_ : option string;
  trace : list Event
}.

(** The options as the framework holds them: name to value. *)
Abbreviation Param := (gmap string string).

Definition set_disk (d : Disk) (w : World) : World :=
  mkWorld d (cwd w) (search_path w) (debug_level_ w) (working_dir_ w) (trace w).

Definition set_debug_level (n : Z) (w : World) : World :=
  mkWorld (disk w) (cwd w) (search_path w) n (working_dir_ w) (trace w).

Definition set_working_dir (o : option string) (w : World) : World :=
  mkWorld (disk w) (cwd w) (search_path w) (debug_level_ w) o (trace w).

Definition emit (e : Event) (w : World) : World :=
  mkWorld (disk w) (cwd w) (search_path w) (debug_level_ w) (working_dir_ w)
          (trace w ++ [e]).

Definition set_files (m : gmap string string) (d : Disk) : Disk :=
  mkDisk m (dirs d).

(** ** A state monad over [World] *)

Definition M (A : Type) : Type := World → A * World.

#[global] Instance M_ret : MRet M := λ A a w, (a, w).
#[global] Instance M_bind : MBind M :=
  λ A B f m w, let '(a, w') := m w in f a w'.

Definition modify (f : World → World) : M unit := λ w, (tt, f w).
Definition gets {A} (f : World → A) : M A := λ w, (f w, w).

(** ** Strings and paths *)

(** [String::empty()] / [QString::isEmpty()]. *)
Definition is_empty (s : string) : bool :=
  match s with
  | EmptyString => true
  | String _ _ => false
  end.

(** [p] names the directory [d] or something below it. *)
Definition under (d p : string) : bool := String.prefix d p.

(** *** Path names

    A path name is resolved the way the file system does it: a relative
    name starts at the working directory; empty elements and [.] are
    skipped; [..] goes one directory up; every element that is stepped
    into or out of has to be a directory.  The disk has no symbolic links
    and no permissions. *)

(** The path separator, [/]. *)
Definition separator : Ascii.ascii := Ascii.ascii_of_nat 47.

(** The elements of a path name, split at the separator. *)
Fixpoint path_elements_from (cur p : string) : list string :=
  match p with
  | EmptyString => [cur]
  | String c rest =>
      if Ascii.eqb c separator then cur :: path_elements_from "" rest
      else path_elements_from (cur +:+ String c "") rest
  end.

Definition path_elements (p : string) : list string :=
  path_elements_from "" p.

(** The absolute name of a stack of elements, root first. *)
Definition join_path (stack : list string) : string :=
  match stack with
  | [] => "/"
  | _ => foldr (λ e acc, "/" +:+ e +:+ acc) "" stack
  end.

Definition skipped (e : string) : bool := String.eqb e "" || String.eqb e ".".

(** The name without empty, [.] and [..] elements; the stack is kept
    innermost element first. *)
Definition normalize (p : string) : string :=
  join_path (reverse (foldl (λ st e, if skipped e then st
                                     else if String.eqb e ".." then tail st
                                     else e :: st)
                            [] (path_elements p))).

(** [q] is a directory: the root, a directory of the disk, or an ancestor
    of one. *)
Definition is_dir (ds : gset string) (q : string) : bool :=
  String.eqb q "/"
  || existsb (λ d, String.eqb (normalize d) q
                   || String.prefix (q +:+ "/") (normalize d))
             (elements ds).

Fixpoint walk (ds : gset string) (st : list string) (es : list string)
  : option (list string) :=
  match es with
  | [] => Some st
  | e :: es' =>
      if skipped e then walk ds st es'
      else if is_dir ds (join_path (reverse st)) then
        walk ds (if String.eqb e ".." then tail st else e :: st) es'
      else None
  end.

Definition absolute_path (cwd p : string) : string :=
  if String.prefix "/" p then p else cwd +:+ "/" +:+ p.

(** The entry a path name leads to, [None] when the name is empty or a
    directory on the way is missing. *)
Definition resolve (ds : gset string) (cwd p : string) : option string :=
  if is_empty p then None
  else st ← walk ds [] (path_elements (absolute_path cwd p));
       Some (join_path (reverse st)).

(** The name ends in a separator, [.] or [..]: it can only name a
    directory. *)
Definition dir_form (p : string) : bool :=
  match last (path_elements p) with
  | Some e => skipped e || String.eqb e ".."
  | None => true
  end.

(** The bytes of the regular file that [p] names. *)
Definition file_at (k : Disk) (cwd p : string) : option string :=
  if dir_form p then None
  else key ← resolve (dirs k) cwd p; files k !! key.

(** Where a regular file can be created or truncated under the name [p]:
    the directory that holds it exists and [p] names no directory. *)
Definition writable_at (k : Disk) (cwd p : string) : option string :=
  if dir_form p then None
  else key ← resolve (dirs k) cwd p;
       if is_dir (dirs k) key then None else Some key.

(** A key of the disk holds a regular file or is a directory. *)
Definition path_exists (d : Disk) (p : string) : bool :=
  bool_decide (is_Some (files d !! p)) || is_dir (dirs d) p.

Definition absoluteFilePath (w : World) (p : string) : string :=
  absolute_path (cwd w) p.

(** [QFileInfo::canonicalFilePath] as a function of the disk: the
    absolute name, free of [.], [..] and empty elements, of the existing
    entry that [p] names; the empty string when there is none. *)
Definition canonical_path (k : Disk) (cwd p : string) : string :=
  match resolve (dirs k) cwd p with
  | Some key =>
      if bool_decide (is_Some (files k !! key)) && negb (dir_form p)
         || is_dir (dirs k) key
      then key else ""
  | None => ""
  end.

Definition canonicalFilePath (p : string) : M string :=
  λ w, (canonical_path (disk w) (cwd w) p, w).

(** Modelled from the spec: the lookup of a bare command name on the
    environment search path, the first directory that holds it.  [main_]
    does not call it. *)
Definition findOnSearchPath (w : World) (name : string) : option string :=
  head (filter (λ p, is_Some (files (disk w) !! p))
               ((λ d, d +:+ "/" +:+ name) <$> search_path w)).

(** ** File operations the adapter uses *)

(** Nothing of the disk lies below the directory [key]. *)
Definition dir_is_empty (k : Disk) (key : string) : bool :=
  negb (existsb (λ f, String.prefix (key +:+ "/") f) (map_to_list (files k)).*1)
  && negb (existsb (λ d, String.prefix (key +:+ "/") (normalize d))
                   (elements (dirs k))).

(** [key] is a directory the disk lists. *)
Definition is_listed_dir (ds : gset string) (key : string) : bool :=
  existsb (λ d, String.eqb (normalize d) key) (elements ds).

(** What [remove(path)] of <cstdio> does to the disk: a regular file is
    unlinked, an empty directory is removed (the directory that held it
    stays), and nothing changes when the name leads nowhere or to a
    directory that is not empty. *)
Definition remove_on (k : Disk) (cwd p : string) : Disk :=
  match resolve (dirs k) cwd p with
  | Some key =>
      if bool_decide (is_Some (files k !! key)) then
        if dir_form p then k else set_files (delete key (files k)) k
      else if is_listed_dir (dirs k) key && negb (String.eqb key "/")
              && dir_is_empty k key then
        mkDisk (files k)
               ({[normalize (key +:+ "/..")]}
                ∪ filter (λ d, normalize d ≠ key) (dirs k))
      else k
  | None => k
  end.

Definition remove (p : string) : M unit :=
  modify (λ w, emit (EvRemove p) (set_disk (remove_on (disk w) (cwd w) p) w)).

(** [std::ifstream src(path, std::ios::binary)]: the bytes behind the
    stream, [None] when the file could not be opened. *)
Definition ifstream (p : string) : M (option string) :=
  λ w, (file_at (disk w) (cwd w) p, emit (EvOpenRead p) w).

(** [std::ofstream dst(path, std::ios::binary)]: the file is created, or
    truncated when it exists, and the stream stands for its entry; [None]
    when the file could not be opened, and then the disk stays as it is. *)
Definition ofstream (p : string) : M (option string) :=
  λ w, match writable_at (disk w) (cwd w) p with
       | Some key =>
           (Some key,
            emit (EvOpenWrite p)
              (set_disk (set_files (<[key := ""]> (files (disk w))) (disk w)) w))
       | None => (None, emit (EvOpenWrite p) w)
       end.

(** [dst << src.rdbuf()]: every byte of the source; nothing when the
    source or the destination is not open. *)
Definition stream_insert (dst src : option string) : M unit :=
  match dst, src with
  | Some key, Some bytes =>
      modify (λ w, emit (EvWrite key bytes)
                     (set_disk (set_files (<[key := bytes]> (files (disk w)))
                                          (disk w)) w))
  | _, _ => mret tt
  end.

(** ** The framework's services *)

Definition writeLog_ (msg : string) : M unit := modify (emit (EvLog msg)).

(** [registerOptionsAndFlags_]: the registered options and their defaults. *)
Definition registerOptionsAndFlags_ : Param :=
  <["in" := ""]> (<["database" := ""]> (<["out" := ""]>
    (<["executable" := "dereplicator.py"]> ∅))).

(** Modelled from the spec: [TOPPBase::getStringOption_] is the framework's;
    the value supplied for the option, its registered default otherwise. *)
Definition getStringOption_ (opts : Param) (name : string) : string :=
  match opts !! name with
  | Some v => v
  | None => default "" (registerOptionsAndFlags_ !! name)
  end.

(** Modelled from the spec: the framework's command-line reading; options
    are name/value pairs and are stored by name. *)
Definition parseCommandLine (cl : list (string * string)) : Param :=
  list_to_map cl.

(** Modelled from the spec: [TOPPBase::removeTempDirectory_]; the directory
    and everything below it goes. *)
Definition removeTempDirectory_ (d : string) : M unit :=
  modify (λ w, emit (EvRmTempDir d)
    (set_disk (mkDisk (filter (λ kv, under d kv.1 = false) (files (disk w)))
                      (filter (λ p, under d p = false) (dirs (disk w)))) w)).

Section Adapter.

(** The third-party executable, a black box: from the program path, the
    argument vector and the disk to a status and the disk it leaves. *)
Variable external : string → list string → Disk → ExitCodes * Disk.

(** The framework's choice of a temporary directory name. *)
Variable uniqueTempDir : Disk → string.

(** Modelled from the spec: [TOPPBase::makeAutoRemoveTempDirectory_]; a
    directory is created and remembered in [working_dir_] for removal
    when the tool object goes away. *)
Definition makeAutoRemoveTempDirectory_ : M string :=
  λ w, let d := uniqueTempDir (disk w) in
       (d, emit (EvMkTempDir d)
             (set_working_dir (Some d)
                (set_disk (mkDisk (files (disk w)) ({[d]} ∪ dirs (disk w))) w))).

(** Modelled from the spec: [TOPPBase::runExternalProcess_]; one
    synchronous call that returns the status of the child. *)
Definition runExternalProcess_ (exe : string) (args : list string)
  : M ExitCodes :=
  λ w, let '(code, d') := external exe args (disk w) in
       (code, set_disk d' (emit (EvSpawn exe args) w)).

(** [TOPPDereplicatorAdapter::main_]. *)
Definition main_ (opts : Param) : M ExitCodes :=
  let in_ := getStringOption_ opts "in" in
  let database := getStringOption_ opts "database" in
  let out := getStringOption_ opts "out" in
  if is_empty in_ then
    writeLog_ "Fatal error: no input file (spectra) given";;
    mret ILLEGAL_PARAMETERS
  else if is_empty database then
    writeLog_ "Fatal error: no database given";;
    mret ILLEGAL_PARAMETERS
  else if is_empty out then
    writeLog_ "Fatal error: no output file (results) given";;
    mret ILLEGAL_PARAMETERS
  else
    let executable := getStringOption_ opts "executable" in
    if is_empty executable then
      writeLog_ "FATAL: Executable of Dereplicator could not be found. Please either add it to PATH env variable or provide with -executable";;
      mret MISSING_PARAMETERS
    else
      executable ← canonicalFilePath executable;
      tmp_dir ← makeAutoRemoveTempDirectory_;
      let arguments :=
        [in_; "-o"; tmp_dir; "--db-path"; getStringOption_ opts "database"] in
      modify (set_debug_level 100);;
      exit_code ← runExternalProcess_ executable arguments;
      if bool_decide (exit_code ≠ EXECUTION_OK) then
        mret exit_code
      else
        remove out;;
        (if negb (is_empty out) then
           let tmp_out := tmp_dir +:+ "significant_matches.tsv" in
           src ← ifstream tmp_out;
           dst ← ofstream out;
           stream_insert dst src
         else mret tt);;
        writeLog_ ("Everything is fine! Results are in " +:+ out);;
        mret EXECUTION_OK.

(** Modelled from the spec: the program's [main] builds the tool, runs it
    and destroys it; the framework's destructor removes the directory
    remembered in [working_dir_]. *)
Definition run (opts : Param) : M ExitCodes :=
  modify (set_working_dir None);;
  code ← main_ opts;
  wd ← gets working_dir_;
  match wd with
  | Some d => removeTempDirectory_ d
  | None => mret tt
  end;;
  mret code.

End Adapter.

(** ** Vocabulary of the properties *)

(** The invocation passes the four emptiness checks of [main_] and so
    reaches the temporary directory and the process. *)
Definition validated (opts : Param) : bool :=
  negb (is_empty (getStringOption_ opts "in"))
  && negb (is_empty (getStringOption_ opts "database"))
  && negb (is_empty (getStringOption_ opts "out"))
  && negb (is_empty (getStringOption_ opts "executable")).

(** The first of [in], [database], [out] whose value is empty. *)
Definition missing_option (opts : Param) : option string :=
  find (λ name, is_empty (getStringOption_ opts name)) ["in"; "database"; "out"].

Definition missing_message (name : string) : string :=
  if String.eqb name "in" then "Fatal error: no input file (spectra) given"
  else if String.eqb name "database" then "Fatal error: no database given"
  else "Fatal error: no output file (results) given".

Definition executable_message : string :=
  "FATAL: Executable of Dereplicator could not be found. Please either add it to PATH env variable or provide with -executable".

(** The program path [main_] hands to the process runner. *)
Definition resolved_executable (opts : Param) (w : World) : string :=
  (canonicalFilePath (getStringOption_ opts "executable") w).1.

(** The processes started, oldest first. *)
Definition spawned (t : list Event) : list (string * list string) :=
  omap (λ e, match e with EvSpawn exe args => Some (exe, args) | _ => None end) t.

(** The temporary directories created, oldest first. *)
Definition temp_dirs_made (t : list Event) : list string :=
  omap (λ e, match e with EvMkTempDir d => Some d | _ => None end) t.

(** The lines written to the log, oldest first. *)
Definition logged (t : list Event) : list string :=
  omap (λ e, match e with EvLog msg => Some msg | _ => None end) t.


(** The argument vector [main_] assembles for the directory [tmp]. *)
Definition arguments_for (opts : Param) (tmp : string) : list string :=
  [getStringOption_ opts "in"; "-o"; tmp; "--db-path";
   getStringOption_ opts "database"].

(** The world in which the process is launched: what
    [makeAutoRemoveTempDirectory_] leaves, with the debug level raised. *)
Definition launch_world (uniqueTempDir : Disk → string) (w : World) : World :=
  set_debug_level 100 (makeAutoRemoveTempDirectory_ uniqueTempDir w).2.

(** The world a finished child leaves to the rest of [main_]. *)
Definition after_process (uniqueTempDir : Disk → string) (opts : Param)
    (d' : Disk) (w : World) : World :=
  set_disk d'
    (emit (EvSpawn (resolved_executable opts w)
                   (arguments_for opts (uniqueTempDir (disk w))))
          (launch_world uniqueTempDir w)).

(** The writing-output block of [main_] (source lines 196 to 209) on its
    own, for the directory [tmp_dir]. *)
Definition writing_output (out tmp_dir : string) : M unit :=
  remove out;;
  (if negb (is_empty out) then
     src ← ifstream (tmp_dir +:+ "significant_matches.tsv");
     dst ← ofstream out;
     stream_insert dst src
   else mret tt);;
  writeLog_ ("Everything is fine! Results are in " +:+ out).

(** The path name [p] leads to an entry of the disk, a regular file or a
    directory. *)
Definition names_entry (k : Disk) (cwd p : string) : bool :=
  match resolve (dirs k) cwd p with
  | Some key => path_exists k key
  | None => false
  end.

(** The disk the writing-output block leaves, from the disk [k] it finds:
    [out] removed, then created or truncated where it can be opened, then
    filled with the bytes of the result file where there is one. *)
Definition written_disk (k : Disk) (cwd out tmp_dir : string) : Disk :=
  let k1 := remove_on k cwd out in
  match writable_at k1 cwd out with
  | Some key =>
      set_files (<[key := default "" (file_at k1 cwd
                                        (tmp_dir +:+ "significant_matches.tsv"))]>
                   (files k1)) k1
  | None => k1
  end.

(** The write the block performs, if any. *)
Definition write_events (k : Disk) (cwd out tmp_dir : string) : list Event :=
  let k1 := remove_on k cwd out in
  match writable_at k1 cwd out,
        file_at k1 cwd (tmp_dir +:+ "significant_matches.tsv") with
  | Some key, Some bytes => [EvWrite key bytes]
  | _, _ => []
  end.

(** ** Fixtures: concrete tools, worlds and options *)

Definition tab : string := String (Ascii.ascii_of_nat 9) "".
Definition newline : string := String (Ascii.ascii_of_nat 10) "".

Definition sample_matches : string :=
  "PeptideA" +:+ tab +:+ "0.01" +:+ newline.

(** A tool that writes its result file into the directory given after
    [-o]; launching an empty program path fails. *)
Definition dereplicator (exe : string) (args : list string) (d : Disk)
  : ExitCodes * Disk :=
  if is_empty exe then (EXTERNAL_PROGRAM_ERROR, d)
  else match args with
       | [_; _; o; _; _] =>
           (EXECUTION_OK,
            set_files (<[o +:+ "significant_matches.tsv" := sample_matches]> (files d)) d)
       | _ => (EXTERNAL_PROGRAM_ERROR, d)
       end.

(** A tool that reports success and writes nothing. *)
Definition silent_tool (exe : string) (args : list string) (d : Disk)
  : ExitCodes * Disk := (EXECUTION_OK, d).

(** A tool that leaves a partial file in the directory given after [-o]
    and fails with a status of its own. *)
Definition failing_tool (exe : string) (args : list string) (d : Disk)
  : ExitCodes * Disk :=
  match args with
  | [_; _; o; _; _] =>
      (OTHER_EXIT_CODE 3, set_files (<[o +:+ "partial.log" := "oops"]> (files d)) d)
  | _ => (OTHER_EXIT_CODE 3, d)
  end.

Definition tmp_name (d : Disk) : string := "/tmp/20191101_host_4242_1/".

Definition disk0 : Disk :=
  mkDisk (<["/usr/bin/dereplicator.py" := "#!/usr/bin/env python"]>
          (<["/home/user/sample.mzML" := "<mzML/>"]>
          (<["/home/user/results.tsv" := "stale"]> ∅)))
         ({["/usr/bin"; "/home/user"; "/db/nrps"; "/tmp"]} : gset string).

Definition world0 : World :=
  mkWorld disk0 "/home/user" ["/usr/local/bin"; "/usr/bin"] 0 None [].

Definition opts_full : Param :=
  <["in" := "sample.mzML"]> (<["database" := "/db/nrps"]>
    (<["out" := "/home/user/results.tsv"]>
    (<["executable" := "/usr/bin/dereplicator.py"]> ∅))).

Definition opts_default_exe : Param :=
  <["in" := "sample.mzML"]> (<["database" := "/db/nrps"]>
    (<["out" := "/home/user/results.tsv"]> ∅)).

Definition opts_no_database : Param :=
  <["in" := "sample.mzML"]> (<["out" := "/home/user/results.tsv"]> ∅).

Definition opts_empty_exe : Param := <["executable" := ""]> opts_default_exe.

Definition opts_absent_exe : Param :=
  <["executable" := "/opt/npdtools/bin/dereplicator.py"]> opts_default_exe.


Definition opts_explicit_default : Param :=
  <["executable" := "dereplicator.py"]> (<["threads" := "4"]> opts_default_exe).

Definition opts_out_nodir : Param := <["out" := "/nodir/results.tsv"]> opts_full.

Definition opts_out_in_temp : Param :=
  <["out" := "/tmp/20191101_host_4242_1/results.tsv"]> opts_full.

Definition opts_out_relative : Param := <["out" := "results.tsv"]> opts_full.

Definition opts_dotted_exe : Param :=
  <["executable" := "../../usr/bin/./dereplicator.py"]> opts_full.

Definition world_quiet : World :=
  mkWorld disk0 "/home/user" ["/usr/local/bin"; "/usr/bin"] 1 None [EvLog "started"].

Definition command_line : list (string * string) :=
  [("in", "sample.mzML"); ("database", "/db/nrps");
   ("out", "/home/user/results.tsv"); ("executable", "/usr/bin/dereplicator.py")].

Definition command_line_reordered : list (string * string) :=
  [("executable", "/usr/bin/dereplicator.py"); ("out", "/home/user/results.tsv");
   ("database", "/db/nrps"); ("in", "sample.mzML")].

(** * Properties *)

(** ** Strings *)

Lemma prefix_app (s t : string) : String.prefix s (s +:+ t) = true.
Proof.
  induction s as [|a s IH]; simpl.
  - by destruct t.
  - destruct (Ascii.ascii_dec a a) as [_|Hne]; [exact IH | by destruct Hne].
Qed.

Lemma under_result_file (d name : string) : under d (d +:+ name) = true.
Proof. apply prefix_app. Qed.

Lemma under_self (d : string) : under d d = true.
Proof.
  unfold under. induction d as [|a d IH]; simpl; [done|].
  destruct (Ascii.ascii_dec a a) as [_|Hne]; [exact IH | by destruct Hne].
Qed.

Lemma is_empty_true (s : string) : is_empty s = true ↔ s = "".
Proof. destruct s; simpl; split; congruence. Qed.

Lemma validated_spec (opts : Param) :
  validated opts = true ↔
    is_empty (getStringOption_ opts "in") = false
    ∧ is_empty (getStringOption_ opts "database") = false
    ∧ is_empty (getStringOption_ opts "out") = false
    ∧ is_empty (getStringOption_ opts "executable") = false.
Proof.
  unfold validated.
  rewrite !andb_true_iff, !negb_true_iff. tauto.
Qed.

(** ** Removing the temporary directory *)


Lemma removeTempDirectory_outside (d p : string) (w : World) :
  under d p = false →
  files (disk (removeTempDirectory_ d w).2) !! p = files (disk w) !! p.
Proof.
  intros Hp. unfold removeTempDirectory_, modify. cbn [snd disk emit set_disk files].
  rewrite map_lookup_filter.
  destruct (files (disk w) !! p) as [x|]; cbn; [|done].
  by rewrite option_guard_True.
Qed.

Lemma removeTempDirectory_trace (d : string) (w : World) :
  trace (removeTempDirectory_ d w).2 = (trace w ++ [EvRmTempDir d])%list.
Proof. reflexivity. Qed.

Lemma removeTempDirectory_debug_level (d : string) (w : World) :
  debug_level_ (removeTempDirectory_ d w).2 = debug_level_ w.
Proof. reflexivity. Qed.

(** ** Path names *)

(** Where a walk ends does not depend on the directories of the disk;
    they only decide whether it gets there. *)
Lemma walk_stable (ds1 ds2 : gset string) (es st r1 r2 : list string) :
  walk ds1 st es = Some r1 → walk ds2 st es = Some r2 → r1 = r2.
Proof.
  revert st. induction es as [|e es IH]; intros st; cbn [walk].
  - congruence.
  - destruct (skipped e); [by apply IH|].
    destruct (is_dir ds1 _); [|done]. destruct (is_dir ds2 _); [|done].
    apply IH.
Qed.

Lemma resolve_stable (ds1 ds2 : gset string) (cwd p key1 key2 : string) :
  resolve ds1 cwd p = Some key1 → resolve ds2 cwd p = Some key2 → key1 = key2.
Proof.
  unfold resolve. destruct (is_empty p); [done|].
  destruct (walk ds1 _ _) as [r1|] eqn:H1; [|done].
  destruct (walk ds2 _ _) as [r2|] eqn:H2; [|done].
  cbn. intros [= <-] [= <-]. by rewrite (walk_stable _ _ _ _ _ _ H1 H2).
Qed.

Lemma is_listed_dir_is_dir (ds : gset string) (key : string) :
  is_listed_dir ds key = true → is_dir ds key = true.
Proof.
  unfold is_listed_dir, is_dir. rewrite orb_true_iff, !existsb_exists.
  intros (d & Hd & Heq). right. exists d. by rewrite Heq.
Qed.

Lemma writable_at_Some (k : Disk) (cwd p key : string) :
  writable_at k cwd p = Some key ↔
    dir_form p = false ∧ resolve (dirs k) cwd p = Some key
    ∧ is_dir (dirs k) key = false.
Proof.
  unfold writable_at. destruct (dir_form p).
  { split; [done | by intros (? & _)]. }
  destruct (resolve _ _ _) as [key'|]; cbn.
  - destruct (is_dir _ key') eqn:Hdir; split.
    + done.
    + intros (_ & [= ->] & ?). congruence.
    + by intros [= <-].
    + by intros (_ & [= ->] & _).
  - split; [done | by intros (_ & ? & _)].
Qed.

(** ** Removing a file *)

(** [remove] takes no regular file away but the one its argument names. *)
Lemma remove_on_other_file (k : Disk) (cwd p q : string) :
  resolve (dirs k) cwd p ≠ Some q →
  files (remove_on k cwd p) !! q = files k !! q.
Proof.
  intros Hq. unfold remove_on.
  destruct (resolve _ _ _) as [key|]; [|done].
  destruct (bool_decide _).
  - destruct (dir_form p); [done|]. cbn. apply lookup_delete_ne. congruence.
  - by destruct (_ && _).
Qed.

(** Where the name leads to no directory, [remove] unlinks the file, if
    there is one, and leaves the directories alone. *)
Lemma remove_on_plain (k : Disk) (cwd p key : string) :
  writable_at k cwd p = Some key →
  remove_on k cwd p = set_files (delete key (files k)) k.
Proof.
  intros (Hform & Hres & Hdir)%writable_at_Some.
  unfold remove_on. rewrite Hres, Hform.
  destruct (bool_decide _) eqn:Hfile; [done|].
  destruct (is_listed_dir _ _) eqn:Hlisted.
  { apply is_listed_dir_is_dir in Hlisted. congruence. }
  cbn [andb]. apply bool_decide_eq_false_1 in Hfile.
  rewrite delete_id; [by destruct k|].
  by apply eq_None_not_Some.
Qed.

Lemma remove_on_keeps_dirs (k : Disk) (cwd p d : string) :
  d ∈ dirs k → resolve (dirs k) cwd p ≠ Some (normalize d) →
  d ∈ dirs (remove_on k cwd p).
Proof.
  intros Hd Hne. unfold remove_on.
  destruct (resolve _ _ _) as [key|]; [|done].
  destruct (bool_decide _); [by destruct (dir_form p)|].
  destruct (_ && _); [|done]. cbn.
  apply elem_of_union_r, elem_of_filter. split; [congruence|done].
Qed.

(** ** The writing-output block *)

Lemma writing_output_world (out tmp_dir : string) (w : World) :
  is_empty out = false →
  (writing_output out tmp_dir w).2
  = mkWorld (written_disk (disk w) (cwd w) out tmp_dir)
      (cwd w) (search_path w) (debug_level_ w) (working_dir_ w)
      (trace w
       ++ [EvRemove out; EvOpenRead (tmp_dir +:+ "significant_matches.tsv");
           EvOpenWrite out]
       ++ write_events (disk w) (cwd w) out tmp_dir
       ++ [EvLog ("Everything is fine! Results are in " +:+ out)])%list.
Proof.
  intros Hout.
  unfold writing_output, written_disk, write_events, mbind, M_bind.
  rewrite Hout. cbn [negb].
  unfold remove, ifstream, ofstream, writeLog_, modify.
  cbn [disk files dirs set_disk set_files emit cwd search_path debug_level_
       working_dir_ trace].
  destruct (writable_at (remove_on _ _ _) _ _) as [key|];
    destruct (file_at (remove_on _ _ _) _ _) as [bytes|];
    cbn [stream_insert modify mret M_ret snd disk files dirs set_disk
         set_files emit cwd search_path debug_level_ working_dir_ trace
         default];
    unfold emit, set_disk, set_files;
    cbn [disk files dirs cwd search_path debug_level_ working_dir_ trace];
    rewrite ?insert_insert_eq, <- ?app_assoc; try done.
  all: by destruct (remove_on _ _ _).
Qed.

Lemma write_events_cases (k : Disk) (cwd out tmp_dir : string) :
  write_events k cwd out tmp_dir = []
  ∨ ∃ key bytes, write_events k cwd out tmp_dir = [EvWrite key bytes].
Proof.
  unfold write_events.
  destruct (writable_at _ _ _); [|by left].
  destruct (file_at _ _ _); [right; eauto | by left].
Qed.



(** The block changes no regular file but the one [out] names. *)
Lemma written_disk_other (k : Disk) (cwd out tmp_dir p : string) :
  resolve (dirs k) cwd out ≠ Some p →
  files (written_disk k cwd out tmp_dir) !! p = files k !! p.
Proof.
  intros Hp. unfold written_disk. cbn zeta.
  destruct (writable_at _ _ _) as [key|] eqn:Hw;
    [|by apply remove_on_other_file].
  apply writable_at_Some in Hw as (_ & Hres & _).
  assert (key ≠ p) as Hne.
  { intros ->. destruct (resolve (dirs k) cwd out) as [key0|] eqn:Hres0.
    - by rewrite (resolve_stable _ _ _ _ _ _ Hres0 Hres) in Hp.
    - unfold remove_on in Hres. rewrite Hres0 in Hres. congruence. }
  cbn. rewrite lookup_insert_ne by done. by apply remove_on_other_file.
Qed.

(** The block removes no directory but the one [out] names. *)
Lemma written_disk_keeps_dirs (k : Disk) (cwd out tmp_dir d : string) :
  d ∈ dirs k → resolve (dirs k) cwd out ≠ Some (normalize d) →
  d ∈ dirs (written_disk k cwd out tmp_dir).
Proof.
  intros Hd Hne. unfold written_disk. cbn zeta.
  destruct (writable_at _ _ _); cbn; by apply remove_on_keeps_dirs.
Qed.

Lemma validated_missing (opts : Param) :
  validated opts = true ↔
    missing_option opts = None
    ∧ is_empty (getStringOption_ opts "executable") = false.
Proof.
  rewrite validated_spec. unfold missing_option. cbn [find].
  destruct (is_empty (getStringOption_ opts "in")); [intuition discriminate|].
  destruct (is_empty (getStringOption_ opts "database")); [intuition discriminate|].
  destruct (is_empty (getStringOption_ opts "out")); intuition discriminate.
Qed.

(** The executable option reads as the empty string only when the empty
    string was supplied for it: its registered default is not empty. *)
Lemma executable_option_empty (opts : Param) :
  getStringOption_ opts "executable" = "" ↔ opts !! "executable" = Some "".
Proof.
  unfold getStringOption_.
  destruct (opts !! "executable") as [v|]; [naive_solver|].
  split; [|done]. by vm_compute.
Qed.

(** ** Reading the trace *)

Lemma spawned_app (t1 t2 : list Event) :
  spawned (t1 ++ t2) = (spawned t1 ++ spawned t2)%list.
Proof. apply omap_app. Qed.

Lemma spawned_launch (d exe : string) (args : list string) (rest : list Event) :
  spawned (EvMkTempDir d :: EvSpawn exe args :: rest) = (exe, args) :: spawned rest.
Proof. reflexivity. Qed.

(** ** The shape of a run *)

Section AdapterProperties.

Variable external : string → list string → Disk → ExitCodes * Disk.
Variable uniqueTempDir : Disk → string.

Implicit Types (opts : Param) (w : World) (code : ExitCodes) (k : Disk).

Local Abbreviation tmp_of w := (uniqueTempDir (disk w)).
Local Abbreviation child opts w :=
  (external (resolved_executable opts w) (arguments_for opts (tmp_of w))
            (disk (launch_world uniqueTempDir w))).

Lemma child_unfold opts w :
  child opts w
  = external
      (canonical_path (disk w) (cwd w) (getStringOption_ opts "executable"))
      [getStringOption_ opts "in"; "-o"; tmp_of w; "--db-path";
       getStringOption_ opts "database"]
      (mkDisk (files (disk w)) ({[tmp_of w]} ∪ dirs (disk w))).
Proof. reflexivity. Qed.

Lemma main_failure opts w code k :
  validated opts = true →
  child opts w = (code, k) →
  code ≠ EXECUTION_OK →
  main_ external uniqueTempDir opts w
  = (code, after_process uniqueTempDir opts k w).
Proof.
  intros (Hin & Hdb & Hout & Hexe)%validated_spec Hchild Hcode.
  rewrite child_unfold in Hchild.
  unfold main_. rewrite Hin, Hdb, Hout, Hexe.
  unfold mbind, M_bind, canonicalFilePath, makeAutoRemoveTempDirectory_,
    runExternalProcess_, modify.
  cbn [disk set_debug_level emit set_working_dir set_disk].
  rewrite Hchild.
  by rewrite bool_decide_eq_true_2.
Qed.

Lemma main_success opts w k :
  validated opts = true →
  child opts w = (EXECUTION_OK, k) →
  main_ external uniqueTempDir opts w
  = (EXECUTION_OK,
     (writing_output (getStringOption_ opts "out") (tmp_of w)
        (after_process uniqueTempDir opts k w)).2).
Proof.
  intros (Hin & Hdb & Hout & Hexe)%validated_spec Hchild.
  rewrite child_unfold in Hchild.
  unfold main_. rewrite Hin, Hdb, Hout, Hexe.
  unfold mbind, M_bind, canonicalFilePath, makeAutoRemoveTempDirectory_,
    runExternalProcess_, modify.
  cbn [disk set_debug_level emit set_working_dir set_disk].
  rewrite Hchild.
  rewrite bool_decide_eq_false_2 by (intros Hne; by apply Hne).
  unfold writing_output, mbind, M_bind. rewrite Hout.
  unfold remove, ifstream, ofstream, modify. cbn [negb].
  cbn [disk cwd emit set_disk].
  destruct (writable_at _ _ _); by destruct (file_at _ _ _).
Qed.

Lemma main_invalid opts w name :
  missing_option opts = Some name →
  main_ external uniqueTempDir opts w
  = (ILLEGAL_PARAMETERS, emit (EvLog (missing_message name)) w).
Proof.
  unfold missing_option, main_. cbn [find].
  destruct (is_empty (getStringOption_ opts "in")); [by intros [= <-]|].
  destruct (is_empty (getStringOption_ opts "database")); [by intros [= <-]|].
  destruct (is_empty (getStringOption_ opts "out")); [by intros [= <-]|].
  discriminate.
Qed.

Lemma main_no_executable opts w :
  missing_option opts = None →
  is_empty (getStringOption_ opts "executable") = true →
  main_ external uniqueTempDir opts w
  = (MISSING_PARAMETERS, emit (EvLog executable_message) w).
Proof.
  unfold missing_option, main_. cbn [find].
  destruct (is_empty (getStringOption_ opts "in")); [discriminate|].
  destruct (is_empty (getStringOption_ opts "database")); [discriminate|].
  destruct (is_empty (getStringOption_ opts "out")); [discriminate|].
  by intros _ ->.
Qed.

Lemma run_unfold opts w :
  run external uniqueTempDir opts w
  = let r := main_ external uniqueTempDir opts (set_working_dir None w) in
    match working_dir_ r.2 with
    | Some d => (r.1, (removeTempDirectory_ d r.2).2)
    | None => r
    end.
Proof.
  unfold run, mbind, M_bind, modify, gets.
  destruct (main_ _ _ _ _) as [c w'].
  cbn [fst snd]. by destruct (working_dir_ w').
Qed.

Lemma run_failure opts w code k :
  validated opts = true →
  child opts w = (code, k) →
  code ≠ EXECUTION_OK →
  run external uniqueTempDir opts w
  = (code, (removeTempDirectory_ (tmp_of w)
              (after_process uniqueTempDir opts k w)).2).
Proof.
  intros Hv Hchild Hcode. rewrite run_unfold.
  by rewrite (main_failure opts (set_working_dir None w) code k Hv Hchild Hcode).
Qed.

Lemma run_success opts w k :
  validated opts = true →
  child opts w = (EXECUTION_OK, k) →
  run external uniqueTempDir opts w
  = (EXECUTION_OK,
     (removeTempDirectory_ (tmp_of w)
        (writing_output (getStringOption_ opts "out") (tmp_of w)
           (after_process uniqueTempDir opts k w)).2).2).
Proof.
  intros Hv Hchild. rewrite run_unfold.
  rewrite (main_success opts (set_working_dir None w) k Hv Hchild).
  pose proof Hv as (_ & _ & Hout & _)%validated_spec.
  cbn zeta. cbn [fst snd]. rewrite !writing_output_world by done.
  reflexivity.
Qed.

Lemma run_invalid opts w name :
  missing_option opts = Some name →
  run external uniqueTempDir opts w
  = (ILLEGAL_PARAMETERS,
     emit (EvLog (missing_message name)) (set_working_dir None w)).
Proof.
  intros Hmiss. rewrite run_unfold.
  by rewrite (main_invalid opts (set_working_dir None w) name Hmiss).
Qed.

Lemma run_no_executable opts w :
  missing_option opts = None →
  is_empty (getStringOption_ opts "executable") = true →
  run external uniqueTempDir opts w
  = (MISSING_PARAMETERS,
     emit (EvLog executable_message) (set_working_dir None w)).
Proof.
  intros Hmiss Hexe. rewrite run_unfold.
  by rewrite (main_no_executable opts (set_working_dir None w) Hmiss Hexe).
Qed.

Lemma run_failure_trace opts w code k :
  validated opts = true →
  child opts w = (code, k) →
  code ≠ EXECUTION_OK →
  trace (run external uniqueTempDir opts w).2
  = (trace w
     ++ [EvMkTempDir (tmp_of w);
         EvSpawn (resolved_executable opts w) (arguments_for opts (tmp_of w));
         EvRmTempDir (tmp_of w)])%list.
Proof.
  intros Hv Hchild Hcode. rewrite (run_failure opts w code k) by done.
  cbn [snd]. rewrite removeTempDirectory_trace.
  unfold after_process, launch_world, makeAutoRemoveTempDirectory_.
  cbn [snd trace set_disk emit set_debug_level set_working_dir].
  by rewrite <- !app_assoc.
Qed.

Lemma run_success_trace opts w k :
  validated opts = true →
  child opts w = (EXECUTION_OK, k) →
  let out := getStringOption_ opts "out" in
  let tmp_out := tmp_of w +:+ "significant_matches.tsv" in
  trace (run external uniqueTempDir opts w).2
  = (trace w
     ++ [EvMkTempDir (tmp_of w);
         EvSpawn (resolved_executable opts w) (arguments_for opts (tmp_of w));
         EvRemove out; EvOpenRead tmp_out; EvOpenWrite out]
     ++ write_events k (cwd w) out (tmp_of w)
     ++ [EvLog ("Everything is fine! Results are in " +:+ out);
         EvRmTempDir (tmp_of w)])%list.
Proof.
  intros Hv Hchild out tmp_out. rewrite (run_success opts w k) by done.
  pose proof Hv as (_ & _ & Hout & _)%validated_spec.
  cbn [snd]. rewrite removeTempDirectory_trace, writing_output_world by done.
  unfold after_process, launch_world, makeAutoRemoveTempDirectory_.
  cbn [snd trace disk cwd files set_disk emit set_debug_level set_working_dir].
  rewrite <- !app_assoc. cbn [app]. done.
Qed.

Lemma run_success_files opts w k p :
  validated opts = true →
  child opts w = (EXECUTION_OK, k) →
  under (tmp_of w) p = false →
  files (disk (run external uniqueTempDir opts w).2) !! p
  = files (written_disk k (cwd w) (getStringOption_ opts "out") (tmp_of w)) !! p.
Proof.
  intros Hv Hchild Hp. rewrite (run_success opts w k) by done.
  pose proof Hv as (_ & _ & Hout & _)%validated_spec.
  cbn [snd]. by rewrite removeTempDirectory_outside, writing_output_world.
Qed.

(** The writing-output block where the destination can be opened and is
    not the result file: the disk gains the copy and a write is done. *)
Lemma written_disk_copy (k : Disk) (cwd out tmp_dir out_key bytes : string) :
  file_at k cwd (tmp_dir +:+ "significant_matches.tsv") = Some bytes →
  writable_at k cwd out = Some out_key →
  resolve (dirs k) cwd (tmp_dir +:+ "significant_matches.tsv") ≠ Some out_key →
  files (written_disk k cwd out tmp_dir) !! out_key = Some bytes
  ∧ write_events k cwd out tmp_dir = [EvWrite out_key bytes].
Proof.
  intros Hres Hw Hne. unfold written_disk, write_events. cbn zeta.
  rewrite (remove_on_plain k cwd out out_key Hw).
  assert (writable_at (set_files (delete out_key (files k)) k) cwd out
          = Some out_key) as ->.
  { apply writable_at_Some. by apply writable_at_Some in Hw. }
  assert (file_at (set_files (delete out_key (files k)) k) cwd
            (tmp_dir +:+ "significant_matches.tsv") = Some bytes) as ->.
  { revert Hres. unfold file_at. destruct (dir_form _); [done|].
    cbn [dirs set_files files].
    destruct (resolve _ _ _) as [key|]; cbn; [|done].
    intros Hk. rewrite lookup_delete_ne; [done|congruence]. }
  split; [|done]. cbn. apply lookup_insert_eq.
Qed.

(** ** The claims *)

(** C1, as amended.  When the external process exits successfully, a
    file named significant_matches.tsv is in the temporary working
    directory, and [out] names a place where a file can be opened for
    writing (the directory that holds it exists and [out] is no
    directory), other than the result file and outside the temporary
    directory, the run reports success, removes what was at [out] and then
    writes [out]: the bytes there afterwards are exactly those of the
    result file. *)
Theorem result_copied_on_success opts w k bytes out_key :
  validated opts = true →
  child opts w = (EXECUTION_OK, k) →
  file_at k (cwd w) (tmp_of w +:+ "significant_matches.tsv") = Some bytes →
  writable_at k (cwd w) (getStringOption_ opts "out") = Some out_key →
  resolve (dirs k) (cwd w) (tmp_of w +:+ "significant_matches.tsv")
    ≠ Some out_key →
  under (tmp_of w) out_key = false →
  let out := getStringOption_ opts "out" in
  let tmp_out := tmp_of w +:+ "significant_matches.tsv" in
  let r := run external uniqueTempDir opts w in
  r.1 = EXECUTION_OK
  ∧ files (disk r.2) !! out_key = Some bytes
  ∧ trace r.2
    = (trace w
       ++ [EvMkTempDir (tmp_of w);
           EvSpawn (resolved_executable opts w)
                   [getStringOption_ opts "in"; "-o"; tmp_of w; "--db-path";
                    getStringOption_ opts "database"];
           EvRemove out; EvOpenRead tmp_out; EvOpenWrite out;
           EvWrite out_key bytes;
           EvLog ("Everything is fine! Results are in " +:+ out);
           EvRmTempDir (tmp_of w)])%list.
Proof.
  intros Hv Hchild Hres Hw Hne Hout out tmp_out r.
  destruct (written_disk_copy k (cwd w) out (tmp_of w) out_key bytes)
    as [Hfile Hwrite]; [done..|].
  subst r. split_and!.
  - by rewrite (run_success opts w k).
  - by rewrite (run_success_files opts w k out_key).
  - rewrite (run_success_trace opts w k) by done.
    fold out tmp_out. by rewrite Hwrite.
Qed.

(** C3. When the external process exits with a status other than success,
    the run returns that very status, starts the process once, and does
    nothing to the disk besides creating and removing its temporary
    directory: [main_] hands back the disk as the child left it, the files
    given to the child are the files of the caller, and after the cleanup
    every path outside the temporary directory, [out] among them, holds
    what the child left there. *)
Theorem failure_status_passed_through opts w code k :
  validated opts = true →
  child opts w = (code, k) →
  code ≠ EXECUTION_OK →
  let out := getStringOption_ opts "out" in
  let r := run external uniqueTempDir opts w in
  r.1 = code
  ∧ (main_ external uniqueTempDir opts w).1 = code
  ∧ disk (main_ external uniqueTempDir opts w).2 = k
  ∧ files (disk (launch_world uniqueTempDir w)) = files (disk w)
  ∧ trace r.2
    = (trace w
       ++ [EvMkTempDir (tmp_of w);
           EvSpawn (resolved_executable opts w) (arguments_for opts (tmp_of w));
           EvRmTempDir (tmp_of w)])%list
  ∧ (∀ p, under (tmp_of w) p = false → files (disk r.2) !! p = files k !! p)
  ∧ (under (tmp_of w) out = false → files (disk r.2) !! out = files k !! out).
Proof.
  intros Hv Hchild Hcode out r.
  assert (∀ p, under (tmp_of w) p = false →
               files (disk r.2) !! p = files k !! p) as Houtside.
  { intros p Hp. subst r. rewrite (run_failure opts w code k) by done.
    cbn [snd]. by rewrite removeTempDirectory_outside. }
  subst r. split_and!; try done.
  - by rewrite (run_failure opts w code k).
  - by rewrite (main_failure opts w code k).
  - by rewrite (main_failure opts w code k).
  - by apply (run_failure_trace opts w code k).
  - apply Houtside.
Qed.

(** C4. When [in], [database] or [out] is empty, the run returns
    [ILLEGAL_PARAMETERS] with the message of the first empty one, in the
    order in, database, out, and does nothing else: the disk is the
    caller's, no temporary directory was made, no process was started and
    the only event is that one log line. *)
Theorem missing_parameter_fails_fast opts w :
  is_empty (getStringOption_ opts "in")
  || is_empty (getStringOption_ opts "database")
  || is_empty (getStringOption_ opts "out") = true →
  let r := run external uniqueTempDir opts w in
  ∃ name,
    missing_option opts = Some name
    ∧ name ∈ ["in"; "database"; "out"]
    ∧ r.1 = ILLEGAL_PARAMETERS
    ∧ disk r.2 = disk w
    ∧ working_dir_ r.2 = None
    ∧ debug_level_ r.2 = debug_level_ w
    ∧ trace r.2 = (trace w ++ [EvLog (missing_message name)])%list.
Proof.
  intros Hempty r.
  assert (∃ name, missing_option opts = Some name
                  ∧ name ∈ ["in"; "database"; "out"]) as (name & Hmiss & Hin).
  { unfold missing_option. cbn [find].
    destruct (is_empty (getStringOption_ opts "in")).
    { eexists; split; [done|]. set_solver. }
    destruct (is_empty (getStringOption_ opts "database")).
    { eexists; split; [done|]. set_solver. }
    destruct (is_empty (getStringOption_ opts "out")); [|done].
    eexists; split; [done|]. set_solver. }
  exists name. subst r. rewrite (run_invalid opts w name Hmiss).
  by split_and!.
Qed.

(** C5. Whenever the run reaches the process step, it starts exactly one
    process and the argument vector is [in; -o; tempDir; --db-path;
    database], in that order and with nothing added, whatever the child
    then does; and a command line that supplies the same options in another
    order gives the same run. *)
Theorem argument_vector_fixed opts w :
  validated opts = true →
  spawned (trace (run external uniqueTempDir opts w).2)
  = (spawned (trace w)
     ++ [(resolved_executable opts w,
          [getStringOption_ opts "in"; "-o"; tmp_of w; "--db-path";
           getStringOption_ opts "database"])])%list
  ∧ ∀ cl cl' : list (string * string),
      opts = parseCommandLine cl → NoDup (cl.*1) → cl ≡ₚ cl' →
      run external uniqueTempDir (parseCommandLine cl') w
      = run external uniqueTempDir opts w.
Proof.
  intros Hv. split.
  - destruct (child opts w) as [code k] eqn:Hchild.
    destruct (decide (code = EXECUTION_OK)) as [->|Hcode].
    + rewrite (run_success_trace opts w k) by done.
      rewrite !spawned_app.
      by destruct (write_events_cases k (cwd w) (getStringOption_ opts "out")
                     (tmp_of w)) as [->|(key & bytes & ->)].
    + rewrite (run_failure_trace opts w code k) by done.
      unfold spawned. by rewrite omap_app.
  - intros cl cl' -> Hnodup Hperm. unfold parseCommandLine.
    by rewrite (list_to_map_proper cl cl').
Qed.

Lemma main_shape opts w :
  validated opts = true →
  main_ external uniqueTempDir opts w
  = let '(code, w1) :=
      runExternalProcess_ external (resolved_executable opts w)
        (arguments_for opts (tmp_of w)) (launch_world uniqueTempDir w) in
    if bool_decide (code ≠ EXECUTION_OK) then (code, w1)
    else (EXECUTION_OK,
          (writing_output (getStringOption_ opts "out") (tmp_of w) w1).2).
Proof.
  intros Hv. unfold runExternalProcess_.
  destruct (child opts w) as [code k] eqn:Hchild.
  destruct (decide (code = EXECUTION_OK)) as [->|Hcode].
  - rewrite (main_success opts w k), bool_decide_eq_false_2; naive_solver.
  - by rewrite (main_failure opts w code k), bool_decide_eq_true_2.
Qed.

Lemma main_validated_trace opts w :
  validated opts = true →
  ∃ rest,
    trace (main_ external uniqueTempDir opts w).2
    = (trace w
       ++ EvMkTempDir (tmp_of w)
          :: EvSpawn (resolved_executable opts w) (arguments_for opts (tmp_of w))
          :: rest)%list
    ∧ spawned rest = []
    ∧ EvLog executable_message ∉ rest.
Proof.
  intros Hv. pose proof Hv as (_ & _ & Hout & _)%validated_spec.
  destruct (child opts w) as [code k] eqn:Hchild.
  destruct (decide (code = EXECUTION_OK)) as [->|Hcode].
  - rewrite (main_success opts w k) by done. cbn [snd].
    rewrite writing_output_world by done.
    unfold after_process, launch_world, makeAutoRemoveTempDirectory_.
    cbn [snd trace disk cwd files set_disk emit set_debug_level set_working_dir].
    rewrite <- !app_assoc. cbn [app]. eexists; split; [reflexivity|].
    destruct (write_events_cases k (cwd w) (getStringOption_ opts "out")
                (tmp_of w)) as [->|(key & bytes & ->)];
      (split; [done|]); cbn [app];
      rewrite !not_elem_of_cons; split_and!; try done;
      solve [ intros Heq; injection Heq as Heq; by cbn in Heq
            | apply not_elem_of_nil ].
  - rewrite (main_failure opts w code k) by done.
    unfold after_process, launch_world, makeAutoRemoveTempDirectory_.
    cbn [snd trace disk files set_disk emit set_debug_level set_working_dir].
    rewrite <- !app_assoc. cbn [app]. exists []. split_and!; try done.
    apply not_elem_of_nil.
Qed.


(** C9. Whenever validation and the executable check pass, the debug level
    is 100 in the world in which the process runner is entered, whatever
    level the caller had set, and it is still 100 when [main_] and the run
    return, whatever the child reported. *)
Theorem debug_level_forced opts w :
  validated opts = true →
  debug_level_ (launch_world uniqueTempDir w) = 100
  ∧ main_ external uniqueTempDir opts w
    = (let '(code, w1) :=
         runExternalProcess_ external (resolved_executable opts w)
           (arguments_for opts (tmp_of w)) (launch_world uniqueTempDir w) in
       if bool_decide (code ≠ EXECUTION_OK) then (code, w1)
       else (EXECUTION_OK,
             (writing_output (getStringOption_ opts "out") (tmp_of w) w1).2))
  ∧ debug_level_ (main_ external uniqueTempDir opts w).2 = 100
  ∧ debug_level_ (run external uniqueTempDir opts w).2 = 100.
Proof.
  intros Hv. pose proof Hv as (_ & _ & Hout & _)%validated_spec.
  split_and!; [done | by apply main_shape | |];
    destruct (child opts w) as [code k] eqn:Hchild;
    destruct (decide (code = EXECUTION_OK)) as [->|Hcode].
  - rewrite (main_success opts w k) by done. cbn [snd].
    by rewrite writing_output_world.
  - by rewrite (main_failure opts w code k).
  - rewrite (run_success opts w k) by done. cbn [snd].
    by rewrite removeTempDirectory_debug_level, writing_output_world.
  - by rewrite (run_failure opts w code k).
Qed.

(** C10. [main_] takes the missing-executable branch exactly when the three
    required options are not empty and the value of the executable option
    is the empty string; as the option defaults to dereplicator.py, the
    branch is not taken unless the empty string was supplied for it.  An
    executable that is not on the disk is not rejected: its canonical path
    is the empty string, and that is the program path given to the process
    runner.  (Whether a path name leads to an entry is decided as the
    file system decides it: relative to the working directory, with [.],
    [..] and repeated separators resolved.) *)
Theorem executable_branch_only_for_empty_option opts w :
  (main_ external uniqueTempDir opts w
     = (MISSING_PARAMETERS, emit (EvLog executable_message) w)
   ↔ missing_option opts = None ∧ getStringOption_ opts "executable" = "")
  ∧ (opts !! "executable" ≠ Some "" →
     main_ external uniqueTempDir opts w
     ≠ (MISSING_PARAMETERS, emit (EvLog executable_message) w))
  ∧ (validated opts = true →
     names_entry (disk w) (cwd w) (getStringOption_ opts "executable") = false →
     resolved_executable opts w = ""
     ∧ spawned (trace (main_ external uniqueTempDir opts w).2)
       = (spawned (trace w) ++ [("", arguments_for opts (tmp_of w))])%list
     ∧ (main_ external uniqueTempDir opts w).1
       = (external "" (arguments_for opts (tmp_of w))
            (disk (launch_world uniqueTempDir w))).1).
Proof.
  assert (main_ external uniqueTempDir opts w
            = (MISSING_PARAMETERS, emit (EvLog executable_message) w)
          ↔ missing_option opts = None
            ∧ getStringOption_ opts "executable" = "") as Hbranch.
  { split.
    - intros Hmain. destruct (missing_option opts) as [name|] eqn:Hmiss.
      { by rewrite (main_invalid opts w name) in Hmain. }
      split; [done|]. apply is_empty_true.
      destruct (is_empty (getStringOption_ opts "executable")) eqn:Hexe; [done|].
      assert (validated opts = true) as Hv by by apply validated_missing.
      destruct (main_validated_trace opts w Hv) as (rest & Htrace & _).
      rewrite Hmain in Htrace. cbn [snd trace emit] in Htrace.
      apply app_inv_head in Htrace. discriminate.
    - intros [Hmiss Hexe%is_empty_true]. by apply main_no_executable. }
  split_and!; [done | |].
  - intros Hsupplied Hmain. apply Hbranch in Hmain as [_ Hexe].
    by apply executable_option_empty in Hexe.
  - intros Hv Habsent.
    assert (resolved_executable opts w = "") as Hres.
    { unfold resolved_executable, canonicalFilePath, canonical_path.
      cbn [fst]. revert Habsent. unfold names_entry, path_exists.
      destruct (resolve _ _ _) as [key|]; [|done].
      intros [-> ->]%orb_false_iff. done. }
    split_and!; [done | |].
    + destruct (main_validated_trace opts w Hv) as (rest & -> & Hrest & _).
      by rewrite spawned_app, spawned_launch, Hrest, Hres.
    + rewrite <- Hres.
      destruct (child opts w) as [code k] eqn:Hchild.
      destruct (decide (code = EXECUTION_OK)) as [->|Hcode].
      * by rewrite (main_success opts w k).
      * by rewrite (main_failure opts w code k).
Qed.

End AdapterProperties.

(** ** Path names and file operations at concrete inputs *)

Example canonical_path_at_inputs :
  canonical_path disk0 "/home/user" "../../usr/bin/./dereplicator.py"
    = "/usr/bin/dereplicator.py"
  ∧ canonical_path disk0 "/usr/bin" "./dereplicator.py"
    = "/usr/bin/dereplicator.py"
  ∧ canonical_path disk0 "/home/user" "/usr//bin/" = "/usr/bin"
  ∧ canonical_path disk0 "/home/user" "dereplicator.py" = ""
  ∧ canonical_path disk0 "/home/user" "/nodir/../usr/bin/dereplicator.py" = ""
  ∧ canonical_path disk0 "/home/user" "/usr/bin/dereplicator.py/" = "".
Proof. split_and!; by vm_compute. Qed.

Example open_for_writing_at_inputs :
  writable_at disk0 "/home/user" "results.tsv" = Some "/home/user/results.tsv"
  ∧ writable_at disk0 "/home/user" "/nodir/results.tsv" = None
  ∧ writable_at disk0 "/home/user" "/home/user" = None
  ∧ writable_at disk0 "/home/user" "/home/user/new/" = None
  ∧ writable_at disk0 "/home/user" "/home/user/sample.mzML/x.tsv" = None.
Proof. split_and!; by vm_compute. Qed.

Example remove_at_inputs :
  files (remove_on disk0 "/home/user" "results.tsv") !! "/home/user/results.tsv"
    = None
  ∧ remove_on disk0 "/home/user" "/home/user" = disk0
  ∧ remove_on disk0 "/home/user" "/nodir/results.tsv" = disk0
  ∧ is_dir (dirs (remove_on disk0 "/home/user" "/db/nrps")) "/db/nrps" = false
  ∧ is_dir (dirs (remove_on disk0 "/home/user" "/db/nrps")) "/db" = true.
Proof. split_and!; by vm_compute. Qed.

Example dotted_executable_is_started :
  spawned (trace (run dereplicator tmp_name opts_dotted_exe world0).2)
  = [("/usr/bin/dereplicator.py",
      ["sample.mzML"; "-o"; "/tmp/20191101_host_4242_1/"; "--db-path";
       "/db/nrps"])].
Proof. by vm_compute. Qed.

(** ** The claims at concrete invocations *)

Lemma result_copied_on_success_witness :
  let r := run dereplicator tmp_name opts_full world0 in
  r.1 = EXECUTION_OK
  ∧ files (disk world0) !! "/home/user/results.tsv" = Some "stale"
  ∧ files (disk r.2) !! "/home/user/results.tsv" = Some sample_matches.
Proof.
  pose proof (result_copied_on_success dereplicator tmp_name opts_full world0
    (dereplicator "/usr/bin/dereplicator.py"
       (arguments_for opts_full (tmp_name disk0))
       (disk (launch_world tmp_name world0))).2
    sample_matches "/home/user/results.tsv") as H.
  destruct H as (Hcode & Hout & _); [by vm_compute..|].
  split_and!; [exact Hcode | by vm_compute | exact Hout].
Defined.

(** C1 as stated fails on the code.  The child exits successfully and
    leaves significant_matches.tsv in the temporary directory in both runs.
    With [out] in a directory that does not exist the file cannot be
    opened, nothing is written, and the run still reports success; with
    [out] inside the temporary directory the copy goes with the
    directory. *)
Lemma result_copied_on_success_counterexample :
  let k := (dereplicator "/usr/bin/dereplicator.py"
              (arguments_for opts_full (tmp_name disk0))
              (disk (launch_world tmp_name world0))) in
  let r1 := run dereplicator tmp_name opts_out_nodir world0 in
  let r2 := run dereplicator tmp_name opts_out_in_temp world0 in
  k.1 = EXECUTION_OK
  ∧ file_at k.2 "/home/user"
      "/tmp/20191101_host_4242_1/significant_matches.tsv" = Some sample_matches
  ∧ r1.1 = EXECUTION_OK
  ∧ files (disk r1.2) !! "/nodir/results.tsv" = None
  ∧ files (disk r1.2) = files disk0
  ∧ r2.1 = EXECUTION_OK
  ∧ files (disk r2.2) !! "/tmp/20191101_host_4242_1/results.tsv" = None.
Proof. cbv zeta. split_and!; by vm_compute. Qed.

Lemma failure_status_passed_through_witness :
  let r := run failing_tool tmp_name opts_full world0 in
  r.1 = OTHER_EXIT_CODE 3
  ∧ trace r.2
    = [EvMkTempDir "/tmp/20191101_host_4242_1/";
       EvSpawn "/usr/bin/dereplicator.py"
         ["sample.mzML"; "-o"; "/tmp/20191101_host_4242_1/"; "--db-path";
          "/db/nrps"];
       EvRmTempDir "/tmp/20191101_host_4242_1/"]
  ∧ files (disk r.2) !! "/home/user/results.tsv" = Some "stale".
Proof.
  pose proof (failure_status_passed_through failing_tool tmp_name opts_full
    world0 (OTHER_EXIT_CODE 3)
    (failing_tool "/usr/bin/dereplicator.py"
       (arguments_for opts_full (tmp_name disk0))
       (disk (launch_world tmp_name world0))).2) as H.
  destruct H as (Hcode & _ & _ & _ & Htrace & _ & Hout); [by vm_compute..|].
  split_and!; [exact Hcode | exact Htrace |].
  assert (getStringOption_ opts_full "out" = "/home/user/results.tsv") as Hname
    by by vm_compute.
  rewrite Hname in Hout. rewrite Hout; by vm_compute.
Defined.

Lemma missing_parameter_fails_fast_witness :
  let r := run dereplicator tmp_name opts_no_database world0 in
  missing_option opts_no_database = Some "database"
  ∧ r.1 = ILLEGAL_PARAMETERS
  ∧ disk r.2 = disk0
  ∧ trace r.2 = [EvLog "Fatal error: no database given"].
Proof.
  pose proof (missing_parameter_fails_fast dereplicator tmp_name
    opts_no_database world0) as H.
  destruct H as (name & Hname & _ & Hcode & Hdisk & _ & _ & Htrace);
    [by vm_compute|].
  assert (name = "database") as -> by (vm_compute in Hname; congruence).
  split_and!; [exact Hname | exact Hcode | exact Hdisk | exact Htrace].
Defined.

Lemma argument_vector_fixed_witness :
  spawned (trace (run dereplicator tmp_name opts_full world0).2)
  = [("/usr/bin/dereplicator.py",
      ["sample.mzML"; "-o"; "/tmp/20191101_host_4242_1/"; "--db-path";
       "/db/nrps"])]
  ∧ run dereplicator tmp_name (parseCommandLine command_line_reordered) world0
    = run dereplicator tmp_name opts_full world0.
Proof.
  pose proof (argument_vector_fixed dereplicator tmp_name opts_full world0) as H.
  destruct H as (Hargs & Horder); [by vm_compute|].
  split; [exact Hargs|].
  apply (Horder command_line command_line_reordered).
  - by vm_compute.
  - apply (bool_decide_unpack _). by vm_compute.
  - symmetry. apply (reverse_Permutation command_line).
Defined.


Lemma debug_level_forced_witness :
  debug_level_ world_quiet = 1
  ∧ debug_level_ (main_ failing_tool tmp_name opts_full world_quiet).2 = 100
  ∧ debug_level_ (run dereplicator tmp_name opts_full world_quiet).2 = 100.
Proof.
  split; [reflexivity|]. split.
  - apply (debug_level_forced failing_tool tmp_name opts_full world_quiet).
    by vm_compute.
  - apply (debug_level_forced dereplicator tmp_name opts_full world_quiet).
    by vm_compute.
Defined.

Lemma executable_branch_only_for_empty_option_witness :
  main_ dereplicator tmp_name opts_empty_exe world0
  = (MISSING_PARAMETERS, emit (EvLog executable_message) world0)
  ∧ resolved_executable opts_absent_exe world0 = ""
  ∧ spawned (trace (main_ dereplicator tmp_name opts_absent_exe world0).2)
    = [("", ["sample.mzML"; "-o"; "/tmp/20191101_host_4242_1/"; "--db-path";
             "/db/nrps"])].
Proof.
  split.
  - apply (executable_branch_only_for_empty_option dereplicator tmp_name
             opts_empty_exe world0). by vm_compute.
  - pose proof (executable_branch_only_for_empty_option dereplicator tmp_name
                  opts_absent_exe world0) as (_ & _ & H).
    destruct H as (Hres & Hspawn & _); [by vm_compute..|].
    split; [exact Hres | exact Hspawn].
Defined.

(** ** Where the code departs from the specification *)

(** C2. Evaluation at a child that reports success and writes no
    significant_matches.tsv: the run reports [EXECUTION_OK], logs that the
    results are in [out], and leaves an empty file there in place of the
    caller's; no error is returned. *)
Lemma missing_result_reported_as_success :
  let r := run silent_tool tmp_name opts_full world0 in
  (silent_tool "/usr/bin/dereplicator.py"
     (arguments_for opts_full (tmp_name disk0))
     (disk (launch_world tmp_name world0))).1 = EXECUTION_OK
  ∧ files (disk (launch_world tmp_name world0))
      !! "/tmp/20191101_host_4242_1/significant_matches.tsv" = None
  ∧ files (disk world0) !! "/home/user/results.tsv" = Some "stale"
  ∧ r.1 = EXECUTION_OK
  ∧ files (disk r.2) !! "/home/user/results.tsv" = Some ""
  ∧ trace r.2
    = [EvMkTempDir "/tmp/20191101_host_4242_1/";
       EvSpawn "/usr/bin/dereplicator.py"
         ["sample.mzML"; "-o"; "/tmp/20191101_host_4242_1/"; "--db-path";
          "/db/nrps"];
       EvRemove "/home/user/results.tsv";
       EvOpenRead "/tmp/20191101_host_4242_1/significant_matches.tsv";
       EvOpenWrite "/home/user/results.tsv";
       EvLog "Everything is fine! Results are in /home/user/results.tsv";
       EvRmTempDir "/tmp/20191101_host_4242_1/"].
Proof.
  cbv zeta. split_and!; by vm_compute.
Qed.

(** C6. Evaluation at an executable option that names no file on the disk:
    its canonical path is empty, yet the run creates the temporary
    directory, starts a process with the empty program path and returns the
    child's status; [MISSING_PARAMETERS] is not returned and the
    missing-executable message is not logged. *)
Lemma absent_executable_not_rejected :
  let r := run dereplicator tmp_name opts_absent_exe world0 in
  getStringOption_ opts_absent_exe "executable"
    = "/opt/npdtools/bin/dereplicator.py"
  ∧ path_exists disk0 "/opt/npdtools/bin/dereplicator.py" = false
  ∧ resolved_executable opts_absent_exe world0 = ""
  ∧ r.1 = EXTERNAL_PROGRAM_ERROR
  ∧ trace r.2
    = [EvMkTempDir "/tmp/20191101_host_4242_1/";
       EvSpawn ""
         ["sample.mzML"; "-o"; "/tmp/20191101_host_4242_1/"; "--db-path";
          "/db/nrps"];
       EvRmTempDir "/tmp/20191101_host_4242_1/"].
Proof.
  cbv zeta. split_and!; by vm_compute.
Qed.

(** C7. Evaluation with the executable option left to its default while
    the wrapper is on the search path and not in the working directory: the
    default is the bare name dereplicator.py, the search path would give
    /usr/bin/dereplicator.py, but the canonical path [main_] computes is
    empty, the process is started with the empty program path and the run
    returns the child's status, not [MISSING_PARAMETERS]. *)
Lemma default_executable_not_searched :
  let r := run dereplicator tmp_name opts_default_exe world0 in
  opts_default_exe !! "executable" = None
  ∧ getStringOption_ opts_default_exe "executable" = "dereplicator.py"
  ∧ findOnSearchPath world0 "dereplicator.py" = Some "/usr/bin/dereplicator.py"
  ∧ absoluteFilePath world0 "dereplicator.py" = "/home/user/dereplicator.py"
  ∧ resolved_executable opts_default_exe world0 = ""
  ∧ spawned (trace r.2)
    = [("", ["sample.mzML"; "-o"; "/tmp/20191101_host_4242_1/"; "--db-path";
             "/db/nrps"])]
  ∧ r.1 = EXTERNAL_PROGRAM_ERROR.
Proof.
  cbv zeta. split_and!; by vm_compute.
Qed.

(** ** Further properties of [main_] and of the run *)

Lemma logged_app (t1 t2 : list Event) :
  logged (t1 ++ t2) = (logged t1 ++ logged t2)%list.
Proof. apply omap_app. Qed.

Lemma temp_dirs_made_app (t1 t2 : list Event) :
  temp_dirs_made (t1 ++ t2) = (temp_dirs_made t1 ++ temp_dirs_made t2)%list.
Proof. apply omap_app. Qed.

Lemma validated_false (opts : Param) :
  validated opts = false →
  (∃ name, missing_option opts = Some name)
  ∨ (missing_option opts = None
     ∧ is_empty (getStringOption_ opts "executable") = true).
Proof.
  intros Hv. destruct (missing_option opts) as [name|] eqn:Hmiss; [by eauto|].
  right. split; [done|].
  destruct (is_empty (getStringOption_ opts "executable")) eqn:Hexe; [done|].
  assert (validated opts = true) by by apply validated_missing. congruence.
Qed.

Section AdapterFurther.

Variable external : string → list string → Disk → ExitCodes * Disk.
Variable uniqueTempDir : Disk → string.

Implicit Types (opts : Param) (w : World) (code : ExitCodes) (k : Disk).

Local Abbreviation tmp_of w := (uniqueTempDir (disk w)).
Local Abbreviation child opts w :=
  (external (resolved_executable opts w) (arguments_for opts (tmp_of w))
            (disk (launch_world uniqueTempDir w))).

(** X1. The status of a run, in full: [ILLEGAL_PARAMETERS] when one of in,
    database, out is empty, whatever the executable option; otherwise
    [MISSING_PARAMETERS] when the executable option is empty; otherwise the
    status of the child, whether or not a result file was written.  [main_]
    and the run return the same status. *)
Theorem exit_status_characterised opts w :
  (run external uniqueTempDir opts w).1
  = match missing_option opts with
    | Some _ => ILLEGAL_PARAMETERS
    | None =>
        if is_empty (getStringOption_ opts "executable")
        then MISSING_PARAMETERS
        else (child opts w).1
    end
  ∧ (main_ external uniqueTempDir opts w).1
    = (run external uniqueTempDir opts w).1.
Proof.
  destruct (missing_option opts) as [name|] eqn:Hmiss.
  { by rewrite (run_invalid _ _ opts w name), (main_invalid _ _ opts w name). }
  destruct (is_empty (getStringOption_ opts "executable")) eqn:Hexe.
  { by rewrite run_no_executable, main_no_executable. }
  assert (validated opts = true) as Hv by by apply validated_missing.
  destruct (child opts w) as [code k] eqn:Hchild.
  destruct (decide (code = EXECUTION_OK)) as [->|Hcode].
  - by rewrite (run_success _ _ opts w k), (main_success _ _ opts w k).
  - by rewrite (run_failure _ _ opts w code k), (main_failure _ _ opts w code k).
Qed.

(** X2. A run that does not pass the four emptiness checks has no effect
    besides one log line: the disk and the debug level are the caller's, no
    temporary directory is made or remembered, no process is started, and
    the status is not success. *)
Theorem rejected_run_has_no_effect opts w :
  validated opts = false →
  let r := run external uniqueTempDir opts w in
  disk r.2 = disk w
  ∧ debug_level_ r.2 = debug_level_ w
  ∧ working_dir_ r.2 = None
  ∧ spawned (trace r.2) = spawned (trace w)
  ∧ temp_dirs_made (trace r.2) = temp_dirs_made (trace w)
  ∧ (∃ msg, trace r.2 = (trace w ++ [EvLog msg])%list)
  ∧ r.1 ≠ EXECUTION_OK.
Proof.
  intros [[name Hmiss]|[Hmiss Hexe]]%validated_false r; subst r.
  - rewrite (run_invalid _ _ opts w name Hmiss). cbn [fst snd].
    split_and!; try done.
    + cbn [trace emit set_working_dir]. rewrite spawned_app.
      cbn. by rewrite app_nil_r.
    + cbn [trace emit set_working_dir]. rewrite temp_dirs_made_app.
      cbn. by rewrite app_nil_r.
    + by eexists.
  - rewrite (run_no_executable _ _ opts w Hmiss Hexe). cbn [fst snd].
    split_and!; try done.
    + cbn [trace emit set_working_dir]. rewrite spawned_app.
      cbn. by rewrite app_nil_r.
    + cbn [trace emit set_working_dir]. rewrite temp_dirs_made_app.
      cbn. by rewrite app_nil_r.
    + by eexists.
Qed.

Lemma removeTempDirectory_dirs_outside (d p : string) (w : World) :
  under d p = false →
  p ∈ dirs (disk (removeTempDirectory_ d w).2) ↔ p ∈ dirs (disk w).
Proof.
  intros Hp. unfold removeTempDirectory_, modify.
  cbn [snd disk emit set_disk dirs]. rewrite elem_of_filter. tauto.
Qed.

(** X3. Frame of a run that reaches the process.  Apart from the entry
    that [out] names (resolved as the file system resolves it, so a
    relative [out] is taken from the working directory) and the temporary
    directory, the adapter itself changes nothing: every other regular
    file is, when the run returns, as the child left it, and every other
    directory the child left is still there, whatever the child
    reported. *)
Theorem only_out_and_temp_dir_touched opts w p :
  validated opts = true →
  under (tmp_of w) p = false →
  let out := getStringOption_ opts "out" in
  let r := run external uniqueTempDir opts w in
  (resolve (dirs (child opts w).2) (cwd w) out ≠ Some p →
   files (disk r.2) !! p = files (child opts w).2 !! p)
  ∧ (resolve (dirs (child opts w).2) (cwd w) out ≠ Some (normalize p) →
     p ∈ dirs (child opts w).2 → p ∈ dirs (disk r.2)).
Proof.
  intros Hv Hout out r. subst r out.
  pose proof Hv as (_ & _ & Hne & _)%validated_spec.
  destruct (child opts w) as [code k] eqn:Hchild. cbn [snd].
  destruct (decide (code = EXECUTION_OK)) as [->|Hcode].
  - split.
    + intros Hp. rewrite (run_success_files _ _ opts w k p) by done.
      by apply written_disk_other.
    + intros Hp Hd. rewrite (run_success _ _ opts w k) by done. cbn [snd].
      rewrite removeTempDirectory_dirs_outside, writing_output_world by done.
      by apply written_disk_keeps_dirs.
  - rewrite (run_failure _ _ opts w code k) by done. cbn [snd]. split.
    + intros _. by rewrite removeTempDirectory_outside.
    + intros _ Hd. by rewrite removeTempDirectory_dirs_outside.
Qed.

(** X4. What a run writes to the log, in full: the message of the first
    empty required option; else the missing-executable message; else,
    after a child that reported success, the one line that the results are
    in [out] (result file or not); and nothing at all after a child that
    reported anything else. *)
Theorem log_characterised opts w :
  logged (trace (run external uniqueTempDir opts w).2)
  = (logged (trace w)
     ++ match missing_option opts with
        | Some name => [missing_message name]
        | None =>
            if is_empty (getStringOption_ opts "executable")
            then [executable_message]
            else if bool_decide ((child opts w).1 = EXECUTION_OK)
            then ["Everything is fine! Results are in "
                  +:+ getStringOption_ opts "out"]
            else []
        end)%list.
Proof.
  destruct (missing_option opts) as [name|] eqn:Hmiss.
  { rewrite (run_invalid _ _ opts w name) by done.
    cbn [snd trace emit set_working_dir]. by rewrite logged_app. }
  destruct (is_empty (getStringOption_ opts "executable")) eqn:Hexe.
  { rewrite run_no_executable by done.
    cbn [snd trace emit set_working_dir]. by rewrite logged_app. }
  assert (validated opts = true) as Hv by by apply validated_missing.
  destruct (child opts w) as [code k] eqn:Hchild. cbn [fst].
  destruct (decide (code = EXECUTION_OK)) as [->|Hcode].
  - rewrite (run_success_trace _ _ opts w k) by done.
    rewrite bool_decide_eq_true_2 by done. rewrite !logged_app.
    by destruct (write_events_cases k (cwd w) (getStringOption_ opts "out")
                   (tmp_of w)) as [->|(key & bytes & ->)].
  - rewrite (run_failure_trace _ _ opts w code k) by done.
    rewrite bool_decide_eq_false_2 by done. by rewrite logged_app.
Qed.


(** X6. A run depends on the options only through the values read for in,
    database, out and executable: two option sets that read the same there
    give the same run, so other options are ignored and supplying a
    default explicitly is the same as leaving it out. *)
Theorem run_reads_four_options opts opts' w :
  (∀ name, name ∈ ["in"; "database"; "out"; "executable"] →
           getStringOption_ opts name = getStringOption_ opts' name) →
  main_ external uniqueTempDir opts w = main_ external uniqueTempDir opts' w
  ∧ run external uniqueTempDir opts w = run external uniqueTempDir opts' w.
Proof.
  intros Hsame.
  assert (∀ w0, main_ external uniqueTempDir opts w0
                = main_ external uniqueTempDir opts' w0) as Hmain.
  { intros w0. unfold main_.
    rewrite (Hsame "in"), (Hsame "database"), (Hsame "out"),
      (Hsame "executable"); [done|..]; repeat constructor. }
  split; [apply Hmain|]. rewrite !run_unfold. by rewrite Hmain.
Qed.

End AdapterFurther.

Lemma rejected_run_has_no_effect_witness :
  let r := run dereplicator tmp_name opts_empty_exe world_quiet in
  disk r.2 = disk0
  ∧ debug_level_ r.2 = 1
  ∧ spawned (trace r.2) = []
  ∧ temp_dirs_made (trace r.2) = [].
Proof.
  pose proof (rejected_run_has_no_effect dereplicator tmp_name opts_empty_exe
                world_quiet) as H.
  destruct H as (Hdisk & Hdebug & _ & Hspawn & Hmade & _); [by vm_compute|].
  split_and!; [exact Hdisk | exact Hdebug | exact Hspawn | exact Hmade].
Defined.

Lemma only_out_and_temp_dir_touched_witness :
  let r := run dereplicator tmp_name opts_out_relative world0 in
  files (disk r.2) !! "/home/user/sample.mzML" = Some "<mzML/>"
  ∧ files (disk r.2) !! "/home/user/results.tsv" = Some sample_matches
  ∧ ("/db/nrps" ∈ dirs (disk r.2)).
Proof.
  pose proof (only_out_and_temp_dir_touched dereplicator tmp_name
                opts_out_relative world0) as H.
  split_and!.
  - destruct (H "/home/user/sample.mzML") as (Hfile & _); [by vm_compute..|].
    rewrite Hfile; by vm_compute.
  - by vm_compute.
  - destruct (H "/db/nrps") as (_ & Hdir); [by vm_compute..|].
    apply Hdir; [by vm_compute|]. apply (bool_decide_unpack _). by vm_compute.
Defined.


Lemma run_reads_four_options_witness :
  run dereplicator tmp_name opts_explicit_default world0
  = run dereplicator tmp_name opts_default_exe world0.
Proof.
  apply (run_reads_four_options dereplicator tmp_name opts_explicit_default
           opts_default_exe world0).
  intros name Hin.
  repeat (apply elem_of_cons in Hin as [->|Hin]; [by vm_compute|]).
  by apply elem_of_nil in Hin.
Defined.
